(** * Hard-fault diagnostics of [Ch09_Debugging/hardfaults.c]

    A shallow embedding of the two hard-fault handlers of the file (the
    build variants [NEW_HANLDER_1] and [NEW_HANDLER_MEMFAULT]) and of the
    [coreDump] record they leave in the [.CoreDump] RAM section.

    32-bit registers and [uint32_t] fields are coqutil machine words of
    width 32, the memory-mapped registers are words of a word-addressed
    memory, and the persisted region is a list of bytes in the byte order
    of the Cortex-M4 (little-endian). *)

From Stdlib Require Import ZArith List Lia Bool String.
From coqutil Require Import Byte Word.Interface Word.Properties Word.Naive.
From coqutil Require Import Word.LittleEndianList.
Import ListNotations.
Local Open Scope Z_scope.

(** ** Machine words *)

Abbreviation w32 := Naive.word32.

#[local] Existing Instance Naive.word32_ok.

Definition W (z : Z) : w32 := word.of_Z z.

(** ** The persisted record: [struct sCoreDump] *)

Module Dump.

(** [#define COREDUMP_KEY 0xE0C2024] *)
Definition COREDUMP_KEY : w32 := W 0xE0C2024.

Record sCoreDump := mkCoreDump {
  key : w32;              (* must equal COREDUMP_KEY for this to be valid *)
  cause : w32;
  r0 : w32;
  r1 : w32;
  r2 : w32;
  r3 : w32;
  returnAddress : w32;
  stackPointer : w32;
  lastBattReading : w32   (* int32_t: read through [word.signed] *)
}.

(** The members of the struct, as names. *)
Inductive field :=
| Fkey | Fcause | Fr0 | Fr1 | Fr2 | Fr3
| FreturnAddress | FstackPointer | FlastBattReading.

Definition field_eqb (f g : field) : bool :=
  match f, g with
  | Fkey, Fkey | Fcause, Fcause | Fr0, Fr0 | Fr1, Fr1 | Fr2, Fr2 | Fr3, Fr3
  | FreturnAddress, FreturnAddress | FstackPointer, FstackPointer
  | FlastBattReading, FlastBattReading => true
  | _, _ => false
  end.

Definition get (f : field) (d : sCoreDump) : w32 :=
  match f with
  | Fkey => key d
  | Fcause => cause d
  | Fr0 => r0 d
  | Fr1 => r1 d
  | Fr2 => r2 d
  | Fr3 => r3 d
  | FreturnAddress => returnAddress d
  | FstackPointer => stackPointer d
  | FlastBattReading => lastBattReading d
  end.

(** [coreDump.f = v;] *)
Definition set (f : field) (v : w32) (d : sCoreDump) : sCoreDump :=
  match f with
  | Fkey => mkCoreDump v (cause d) (r0 d) (r1 d) (r2 d) (r3 d)
              (returnAddress d) (stackPointer d) (lastBattReading d)
  | Fcause => mkCoreDump (key d) v (r0 d) (r1 d) (r2 d) (r3 d)
              (returnAddress d) (stackPointer d) (lastBattReading d)
  | Fr0 => mkCoreDump (key d) (cause d) v (r1 d) (r2 d) (r3 d)
              (returnAddress d) (stackPointer d) (lastBattReading d)
  | Fr1 => mkCoreDump (key d) (cause d) (r0 d) v (r2 d) (r3 d)
              (returnAddress d) (stackPointer d) (lastBattReading d)
  | Fr2 => mkCoreDump (key d) (cause d) (r0 d) (r1 d) v (r3 d)
              (returnAddress d) (stackPointer d) (lastBattReading d)
  | Fr3 => mkCoreDump (key d) (cause d) (r0 d) (r1 d) (r2 d) v
              (returnAddress d) (stackPointer d) (lastBattReading d)
  | FreturnAddress => mkCoreDump (key d) (cause d) (r0 d) (r1 d) (r2 d) (r3 d)
              v (stackPointer d) (lastBattReading d)
  | FstackPointer => mkCoreDump (key d) (cause d) (r0 d) (r1 d) (r2 d) (r3 d)
              (returnAddress d) v (lastBattReading d)
  | FlastBattReading => mkCoreDump (key d) (cause d) (r0 d) (r1 d) (r2 d) (r3 d)
              (returnAddress d) (stackPointer d) v
  end.

(** *** Layout of the struct in the [.CoreDump] section *)

Inductive ctype := uint32_t | int32_t.

Definition sizeof (t : ctype) : Z :=
  match t with uint32_t => 4 | int32_t => 4 end.

(** Alignment of a member: 1 when the struct is packed, the natural
    alignment of the type on the Cortex-M otherwise. *)
Definition alignof (packed : bool) (t : ctype) : Z :=
  if packed then 1 else match t with uint32_t => 4 | int32_t => 4 end.

(** The member declarations of [struct sCoreDump], in source order. *)
Definition members : list (field * ctype) :=
  [ (Fkey, uint32_t); (Fcause, uint32_t);
    (Fr0, uint32_t); (Fr1, uint32_t); (Fr2, uint32_t); (Fr3, uint32_t);
    (FreturnAddress, uint32_t); (FstackPointer, uint32_t);
    (FlastBattReading, int32_t) ].

Definition align_up (a off : Z) : Z := ((off + a - 1) / a) * a.

(** Offsets given by the C layout rule: each member goes to the next
    offset that satisfies its alignment. *)
Fixpoint place (packed : bool) (off : Z) (ms : list (field * ctype))
  : list (field * Z) :=
  match ms with
  | [] => []
  | (f, t) :: ms' =>
      let o := align_up (alignof packed t) off in
      (f, o) :: place packed (o + sizeof t) ms'
  end.

Fixpoint end_of (packed : bool) (off : Z) (ms : list (field * ctype)) : Z :=
  match ms with
  | [] => off
  | (_, t) :: ms' => end_of packed (align_up (alignof packed t) off + sizeof t) ms'
  end.

Fixpoint lookup (f : field) (l : list (field * Z)) : Z :=
  match l with
  | [] => 0
  | (g, o) :: l' => if field_eqb f g then o else lookup f l'
  end.

(** The struct is declared with [__attribute__((packed))]. *)
Definition offsetof (f : field) : Z := lookup f (place true 0 members).

Definition sizeof_sCoreDump : Z := end_of true 0 members.

(** Bytes of padding in front of each member. *)
Fixpoint padding (packed : bool) (off : Z) (ms : list (field * ctype)) : list Z :=
  match ms with
  | [] => []
  | (_, t) :: ms' =>
      let o := align_up (alignof packed t) off in
      (o - off) :: padding packed (o + sizeof t) ms'
  end.

(** *** Object representation *)

(** A 32-bit store, low byte first. *)
Definition bytes_of_word (v : w32) : list byte := le_split 4 (word.unsigned v).

(** A 32-bit load at byte offset [off] of a region. *)
Definition load32 (region : list byte) (off : Z) : w32 :=
  W (le_combine (firstn 4 (skipn (Z.to_nat off) region))).

(** The bytes of the region that holds [d]: every member at its offset
    (the packed struct has no byte between two members). *)
Definition repr (d : sCoreDump) : list byte :=
  flat_map (fun m => bytes_of_word (get (fst m) d)) members.

(** The struct seen through a region of bytes. *)
Definition of_bytes (region : list byte) : sCoreDump :=
  {| key := load32 region (offsetof Fkey);
     cause := load32 region (offsetof Fcause);
     r0 := load32 region (offsetof Fr0);
     r1 := load32 region (offsetof Fr1);
     r2 := load32 region (offsetof Fr2);
     r3 := load32 region (offsetof Fr3);
     returnAddress := load32 region (offsetof FreturnAddress);
     stackPointer := load32 region (offsetof FstackPointer);
     lastBattReading := load32 region (offsetof FlastBattReading) |}.

(** Modelled from the spec: the boot-time [read] of the core-dump store,
    which the source file does not contain (it only declares the record
    and comments that [key] "must equal COREDUMP_KEY for this to be
    valid").  It validates the key member first and returns absent when
    the key does not match, otherwise the full record. *)
Definition read (region : list byte) : option sCoreDump :=
  if word.eqb (load32 region (offsetof Fkey)) COREDUMP_KEY
  then Some (of_bytes region)
  else None.

End Dump.

(** ** The stacked exception frame: [struct ContextStateFrame] *)

Module Frame.

(** A member of the (packed) frame struct is the word at its offset from
    the frame pointer: [frame->r1] is the word at [frame + 4]. *)
Definition at_offset (mem : w32 -> w32) (frame : w32) (off : Z) : w32 :=
  mem (word.add frame (W off)).

Definition r0 mem frame := at_offset mem frame 0.
Definition r1 mem frame := at_offset mem frame 4.
Definition r2 mem frame := at_offset mem frame 8.
Definition r3 mem frame := at_offset mem frame 12.
Definition r12 mem frame := at_offset mem frame 16.
Definition lr mem frame := at_offset mem frame 20.
Definition return_address mem frame := at_offset mem frame 24.
Definition xpsr mem frame := at_offset mem frame 28.

End Frame.

(** ** The processor *)

Inductive reg := R0 | R1 | LR.
Inductive sysreg := MSP | PSP.

Definition reg_eqb (a b : reg) : bool :=
  match a, b with
  | R0, R0 | R1, R1 | LR, LR => true
  | _, _ => false
  end.

(** What the fault path does that is visible from outside: the stores to
    the [.CoreDump] section and the breakpoint instructions. *)
Inductive event :=
| EvStore (f : Dump.field) (v : w32)
| EvBkpt (imm : Z).

Record machine := mkMachine {
  gpr : reg -> w32;             (* r0, r1 and lr (EXC_RETURN on handler entry) *)
  banked : sysreg -> w32;       (* the two stack pointers *)
  flag_Z : bool;                (* APSR.Z *)
  mem : w32 -> w32;             (* memory outside the .CoreDump section,
                                   memory-mapped registers included *)
  coreDump : Dump.sCoreDump;    (* the global in the .CoreDump section *)
  trace : list event
}.

Definition set_gpr (r : reg) (v : w32) (m : machine) : machine :=
  mkMachine (fun r' => if reg_eqb r' r then v else gpr m r')
            (banked m) (flag_Z m) (mem m) (coreDump m) (trace m).

Definition set_flag_Z (z : bool) (m : machine) : machine :=
  mkMachine (gpr m) (banked m) z (mem m) (coreDump m) (trace m).

(** [coreDump.f = v;] *)
Definition store (f : Dump.field) (v : w32) (m : machine) : machine :=
  mkMachine (gpr m) (banked m) (flag_Z m) (mem m)
            (Dump.set f v (coreDump m)) (trace m ++ [EvStore f v]).

(** [__asm("BKPT #imm")] *)
Definition bkpt (imm : Z) (m : machine) : machine :=
  mkMachine (gpr m) (banked m) (flag_Z m) (mem m) (coreDump m)
            (trace m ++ [EvBkpt imm]).

(** Addresses of the System Control Block registers read by the decoder. *)
Definition CFSR_addr : w32 := W 0xE000ED28.
Definition HFSR_addr : w32 := W 0xE000ED2C.
Definition DFSR_addr : w32 := W 0xE000ED30.
Definition MMFAR_addr : w32 := W 0xE000ED34.
Definition BFAR_addr : w32 := W 0xE000ED38.
Definition AFSR_addr : w32 := W 0xE000ED3C.

(** Debug Halting Control and Status Register; its bit 0 (C_DEBUGEN) is set
    exactly when a debugger is attached.  Neither handler reads it. *)
Definition DHCSR_addr : w32 := W 0xE000EDF0.
Definition debugger_attached (m : machine) : bool :=
  Z.testbit (word.unsigned (mem m DHCSR_addr)) 0.

(** Application Interrupt and Reset Control Register: a system reset is
    requested by a write to it. *)
Definition AIRCR_addr : w32 := W 0xE000ED0C.

(** The stack pointer that was active when the fault was taken: bit 2 of
    EXC_RETURN (in [lr]) tells which of the two stacks got the frame. *)
Definition active_sp (m : machine) : w32 :=
  if Z.testbit (word.unsigned (gpr m LR)) 2 then banked m PSP else banked m MSP.

(** ** The assembly trampolines *)

Inductive cond := AL | EQ | NE.

Inductive operand := Imm (z : Z) | Reg (r : reg).

Inductive instr :=
| MOVS (rd : reg) (op : operand)
| TST (rn : reg) (op : operand)
| B (c : cond) (target : string)
| IT (c : cond)                          (* opens an if-then-else block *)
| MRS (c : cond) (rd : reg) (s : sysreg)
| LDR (rt rn : reg) (imm : Z)
| BKPT (imm : Z).

Inductive line := Label (l : string) | Ins (i : instr).

Definition holds (c : cond) (m : machine) : bool :=
  match c with
  | AL => true
  | EQ => flag_Z m
  | NE => negb (flag_Z m)
  end.

Definition value (op : operand) (m : machine) : w32 :=
  match op with
  | Imm z => W z
  | Reg r => gpr m r
  end.

Definition is_zero (v : w32) : bool := word.unsigned v =? 0.

(** Index of a local label in the block. *)
Fixpoint find_label (l : string) (prog : list line) : option nat :=
  match prog with
  | [] => None
  | Label l' :: prog' =>
      if String.eqb l l' then Some O else option_map S (find_label l prog')
  | Ins _ :: prog' => option_map S (find_label l prog')
  end.

Inductive step_result :=
| Next (pc : nat) (m : machine)
| Leave (symbol : string) (m : machine).   (* branch out of the block *)

Definition step (prog : list line) (pc : nat) (i : instr) (m : machine)
  : step_result :=
  match i with
  | MOVS rd op =>
      let v := value op m in
      Next (S pc) (set_flag_Z (is_zero v) (set_gpr rd v m))
  | TST rn op =>
      Next (S pc) (set_flag_Z (is_zero (word.and (gpr m rn) (value op m))) m)
  | B c target =>
      if holds c m then
        match find_label target prog with
        | Some pc' => Next pc' m
        | None => Leave target m
        end
      else Next (S pc) m
  | IT _ => Next (S pc) m
  | MRS c rd s =>
      if holds c m then Next (S pc) (set_gpr rd (banked m s) m)
      else Next (S pc) m
  | LDR rt rn imm =>
      Next (S pc) (set_gpr rt (mem m (word.add (gpr m rn) (W imm))) m)
  | BKPT imm => Next (S pc) (bkpt imm m)
  end.

(** Runs the block from [pc] until control leaves it. *)
Fixpoint run (fuel : nat) (prog : list line) (pc : nat) (m : machine)
  : option (string * machine) :=
  match fuel with
  | O => None
  | S fuel' =>
      match nth_error prog pc with
      | None => None
      | Some (Label _) => run fuel' prog (S pc) m
      | Some (Ins i) =>
          match step prog pc i m with
          | Next pc' m' => run fuel' prog pc' m'
          | Leave symbol m' => Some (symbol, m')
          end
      end
  end.

(** The body of [HardFault_Handler] under [NEW_HANLDER_1]. *)
Definition HardFault_Handler_1_asm : list line :=
  [ Ins (MOVS R0 (Imm 4));
    Ins (MOVS R1 (Reg LR));
    Ins (TST R0 (Reg R1));
    Ins (B EQ "_MSP");
    Ins (MRS AL R0 PSP);
    Ins (B AL "_HALT");
    Label "_MSP";
    Ins (MRS AL R0 MSP);
    Label "_HALT";
    Ins (LDR R1 R0 20);
    Ins (B AL "hard_fault_handler_c");
    Ins (BKPT 0) ].

(** [HARDFAULT_HANDLING_ASM], the body of [HardFault_Handler] under
    [NEW_HANDLER_MEMFAULT]. *)
Definition HARDFAULT_HANDLING_ASM : list line :=
  [ Ins (TST LR (Imm 4));
    Ins (IT EQ);
    Ins (MRS EQ R0 MSP);
    Ins (MRS NE R0 PSP);
    Ins (B AL "my_fault_handler_c") ].

(** ** [hard_fault_handler_c] (variant [NEW_HANLDER_1]) *)

(** The volatile locals, as the debugger shows them at the breakpoint. *)
Record fault_locals := mkLocals {
  stacked_r0 : w32;
  stacked_r1 : w32;
  stacked_r2 : w32;
  stacked_r3 : w32;
  stacked_r12 : w32;
  stacked_lr : w32;
  stacked_pc : w32;
  stacked_psr : w32;
  _CFSR : w32;
  _HFSR : w32;
  _DFSR : w32;
  _AFSR : w32;
  _BFAR : w32;
  _MMAR : w32
}.

Definition hard_fault_handler_c (hardfault_args : w32) (m : machine)
  : fault_locals * machine :=
  let arg (i : Z) := mem m (word.add hardfault_args (W (4 * i))) in
  ({| stacked_r0 := arg 0;
      stacked_r1 := arg 1;
      stacked_r2 := arg 2;
      stacked_r3 := arg 3;
      stacked_r12 := arg 4;
      stacked_lr := arg 5;
      stacked_pc := arg 6;
      stacked_psr := arg 7;
      _CFSR := mem m CFSR_addr;
      _HFSR := mem m HFSR_addr;
      _DFSR := mem m DFSR_addr;
      _AFSR := mem m AFSR_addr;
      _MMAR := mem m MMFAR_addr;
      _BFAR := mem m BFAR_addr |},
   bkpt 0 m).

(** ** [my_fault_handler_c] (variant [NEW_HANDLER_MEMFAULT]) *)

(** [frame] points into a stack, which lies in [mem], outside the
    [.CoreDump] section: the stores to [coreDump] leave the frame as it is. *)
Definition my_fault_handler_c (frame : w32) (m : machine) : machine :=
  let m := store Dump.Fkey Dump.COREDUMP_KEY m in
  let m := store Dump.Fr0 (Frame.r0 (mem m) frame) m in
  let m := store Dump.Fr1 (Frame.r1 (mem m) frame) m in
  let m := store Dump.Fr2 (Frame.r2 (mem m) frame) m in
  let m := store Dump.Fr3 (Frame.r3 (mem m) frame) m in
  let m := store Dump.FreturnAddress (Frame.return_address (mem m) frame) m in
  let m := store Dump.FstackPointer (Frame.xpsr (mem m) frame) m in
  let m := store Dump.FlastBattReading (W 0) m in
  bkpt 0 m.

(** The two exception entry points: the trampoline, then the C function it
    branches to with the frame pointer in [r0]. *)
Definition HardFault_Handler_1 (m : machine) : option (fault_locals * machine) :=
  match run 16 HardFault_Handler_1_asm 0 m with
  | Some (symbol, m') =>
      if String.eqb symbol "hard_fault_handler_c"
      then Some (hard_fault_handler_c (gpr m' R0) m')
      else None
  | None => None
  end.

Definition HardFault_Handler (m : machine) : option machine :=
  match run 16 HARDFAULT_HANDLING_ASM 0 m with
  | Some (symbol, m') =>
      if String.eqb symbol "my_fault_handler_c"
      then Some (my_fault_handler_c (gpr m' R0) m')
      else None
  | None => None
  end.

(** ** Reading the captured status registers *)

(** The three sub-status fields of the Configurable Fault Status Register
    (MMFSR in bits 0-7, BFSR in bits 8-15, UFSR in bits 16-31) and the
    FORCED bit of the Hard Fault Status Register, as the Arm documentation
    cited at the top of the source file lays them out. *)
Definition MMFSR (cfsr : w32) : Z := Z.land (word.unsigned cfsr) 0xFF.
Definition BFSR (cfsr : w32) : Z := Z.land (Z.shiftr (word.unsigned cfsr) 8) 0xFF.
Definition UFSR (cfsr : w32) : Z := Z.land (Z.shiftr (word.unsigned cfsr) 16) 0xFFFF.
Definition FORCED (hfsr : w32) : bool := Z.testbit (word.unsigned hfsr) 30.

(** Validity bits of the two fault address registers. *)
Definition MMARVALID (cfsr : w32) : bool := Z.testbit (word.unsigned cfsr) 7.
Definition BFARVALID (cfsr : w32) : bool := Z.testbit (word.unsigned cfsr) 15.

Inductive FaultCategory :=
| ProtectionFault             (* memory management *)
| AccessFault                 (* bus *)
| UndefinedInstructionFault   (* usage *)
| EscalatedFault.             (* forced hard fault *)

(** The output of the decoder: the locals of [hard_fault_handler_c]. *)
Definition decoded (hardfault_args : w32) (m : machine) : fault_locals :=
  fst (hard_fault_handler_c hardfault_args m).

(** A category is shown by the decoder's output when the captured status
    has a bit of that category set. *)
Definition shows (l : fault_locals) (c : FaultCategory) : bool :=
  match c with
  | ProtectionFault => negb (MMFSR (_CFSR l) =? 0)
  | AccessFault => negb (BFSR (_CFSR l) =? 0)
  | UndefinedInstructionFault => negb (UFSR (_CFSR l) =? 0)
  | EscalatedFault => FORCED (_HFSR l)
  end.

(** The same machine with another word at address [a]. *)
Definition poke (a v : w32) (m : machine) : machine :=
  mkMachine (gpr m) (banked m) (flag_Z m)
            (fun a' => if word.eqb a' a then v else mem m a')
            (coreDump m) (trace m).

(** "With the validity bit clear the address is reported as not available,
    never as the raw register": what is reported as the address does not
    vary with the content of the address register. *)
Definition invalid_address_withheld (hardfault_args : w32) (m : machine) : Prop :=
  (MMARVALID (mem m CFSR_addr) = false ->
   forall v, _MMAR (decoded hardfault_args (poke MMFAR_addr v m))
             = _MMAR (decoded hardfault_args m))
  /\
  (BFARVALID (mem m CFSR_addr) = false ->
   forall v, _BFAR (decoded hardfault_args (poke BFAR_addr v m))
             = _BFAR (decoded hardfault_args m)).

(** "With a memory-management and a bus bit both set the decoder reports
    ProtectionFault, never AccessFault." *)
Definition protection_wins (hardfault_args : w32) (m : machine) : Prop :=
  MMFSR (mem m CFSR_addr) <> 0 -> BFSR (mem m CFSR_addr) <> 0 ->
  shows (decoded hardfault_args m) ProtectionFault = true
  /\ shows (decoded hardfault_args m) AccessFault = false.

(** ** A concrete fault *)

(** A fault taken on the main stack: hardware has pushed the eight-word
    frame at 0x20017FC8, [lr] holds the EXC_RETURN value 0xFFFFFFF9, no
    debugger is attached (DHCSR reads 0), and the [.CoreDump] section still
    holds what was in RAM before. *)
Definition sample_mem (a : w32) : w32 :=
  match word.unsigned a with
  | 0x20017FC8 => W 0              (* r0 *)
  | 0x20017FCC => W 10             (* r1 *)
  | 0x20017FD0 => W 0x20000A10     (* r2 *)
  | 0x20017FD4 => W 0x00000003     (* r3 *)
  | 0x20017FD8 => W 0x0000000C     (* r12 *)
  | 0x20017FDC => W 0x08000F35     (* lr *)
  | 0x20017FE0 => W 0x080004B6     (* return address *)
  | 0x20017FE4 => W 0x61000000     (* xpsr *)
  | 0xE000ED28 => W 0x00000101     (* CFSR: IACCVIOL and IBUSERR *)
  | 0xE000ED2C => W 0x40000000     (* HFSR: FORCED *)
  | 0xE000ED34 => W 0xDEADBEEF     (* MMFAR, not valid *)
  | 0xE000ED38 => W 0xCAFEF00D     (* BFAR, not valid *)
  | _ => W 0
  end.

Definition stale_dump : Dump.sCoreDump :=
  Dump.mkCoreDump (W 0x5A5A5A5A) (W 0xA5A5A5A5) (W 1) (W 2) (W 3) (W 4)
                  (W 5) (W 6) (W 77).

Definition sample_machine : machine :=
  {| gpr := fun r => match r with LR => W 0xFFFFFFF9 | _ => W 0 end;
     banked := fun s => match s with MSP => W 0x20017FC8 | PSP => W 0x20008000 end;
     flag_Z := false;
     mem := sample_mem;
     coreDump := stale_dump;
     trace := [] |}.

(** The 36 bytes of a region that holds a valid key and the words 1 to 8. *)
Definition sample_region : list byte :=
  Dump.repr (Dump.mkCoreDump Dump.COREDUMP_KEY (W 1) (W 2) (W 3) (W 4) (W 5)
                             (W 6) (W 7) (W 8)).

(** ** The unaligned-access demonstrations *)

(** Configuration and Control Register; its bit 3 (UNALIGN_TRP) makes an
    unaligned word access a fault, as the comment above
    [unaligned_access_bad] says. *)
Definition CCR_addr : w32 := W 0xE000ED14.
Definition UNALIGN_TRP (m : machine) : bool :=
  Z.testbit (word.unsigned (mem m CCR_addr)) 3.

(** A call either returns, or the processor takes the fault for the
    unaligned access at [addr]; both leave a machine state. *)
Inductive outcome (A : Type) :=
| Returns (a : A) (m : machine)
| UnalignedFault (addr : w32) (m : machine).
Arguments Returns {A} a m.
Arguments UnalignedFault {A} addr m.

Definition M (A : Type) : Type := machine -> outcome A.

Definition bind {A B : Type} (c : M A) (k : A -> M B) : M B :=
  fun m =>
    match c m with
    | Returns a m' => k a m'
    | UnalignedFault addr m' => UnalignedFault addr m'
    end.

Notation "x <- c ;; k" := (bind c (fun x => k))
  (at level 61, c at next level, right associativity).

(** The source comments that two of the results depend "on your processor
    and endianness": the byte order is a parameter of the processor. *)
Inductive byte_order := LittleEndian | BigEndian.

Definition split32 (e : byte_order) (v : Z) : list byte :=
  match e with
  | LittleEndian => le_split 4 v
  | BigEndian => rev (le_split 4 v)
  end.

Definition combine32 (e : byte_order) (bs : list byte) : Z :=
  match e with
  | LittleEndian => le_combine bs
  | BigEndian => le_combine (rev bs)
  end.

Definition aligned4 (addr : w32) : bool := word.unsigned addr mod 4 =? 0.

(** [*(uint32_t * )addr], where [bytes] are the four bytes at [addr]. *)
Definition load_word (e : byte_order) (addr : w32) (bytes : list byte) : M w32 :=
  fun m =>
    if UNALIGN_TRP m && negb (aligned4 addr)
    then UnalignedFault addr m
    else Returns (W (combine32 e bytes)) m.

(** [uint32_t bigVariable = 0xAABBCCDD; uint32_t *ptr = &bigVariable;
    uint8_t smallVariable = *ptr;]: the word is stored, loaded back whole
    and converted to [uint8_t]. *)
Definition unaligned_access_ok (e : byte_order) (bigVariable : w32) : M byte :=
  let stored := split32 e 0xAABBCCDD in
  v <- load_word e bigVariable stored ;;
  fun m => Returns (byte.of_Z (word.unsigned v)) m.

(** [uint8_t buffer[6] = {0xAA, 0xBB, 0xCC, 0xDD, 0xEE, 0xFF};] *)
Definition buffer_init : list byte :=
  [Byte.xaa; Byte.xbb; Byte.xcc; Byte.xdd; Byte.xee; Byte.xff].

(** The byte at offset [off] from the start of [buffer]: an element of the
    array for the six offsets inside it, and past its end whatever the
    stack holds there ([beyond off]). *)
Definition byte_at (beyond : Z -> byte) (off : Z) : byte :=
  if off <? 6 then nth (Z.to_nat off) buffer_init Byte.x00 else beyond off.

(** [uint8_t i = index; return *((uint32_t * )(&buffer[i]));] with the array
    at address [buffer]. *)
Definition unaligned_access_bad (e : byte_order) (buffer : w32)
    (beyond : Z -> byte) (index : Z) : M w32 :=
  let i := index mod 256 in
  load_word e (word.add buffer (W i))
            (map (byte_at beyond) [i; i + 1; i + 2; i + 3]).

(** [SCB->CCR |= (1<<3);] *)
Definition set_UNALIGN_TRP : M unit :=
  fun m =>
    Returns tt (poke CCR_addr (word.or (mem m CCR_addr) (W (Z.shiftl 1 3))) m).

(** The block of [do_some_hardfaults] under the comment UNALIGNED ACCESS
    (its last six statements), with the two locals at the addresses
    [buffer] and [bigVariable]. *)
Definition do_some_hardfaults_unaligned (e : byte_order)
    (buffer : w32) (beyond : Z -> byte) (bigVariable : w32) : M unit :=
  _ <- unaligned_access_bad e buffer beyond 1 ;;
  _ <- unaligned_access_ok e bigVariable ;;
  _ <- set_UNALIGN_TRP ;;
  _ <- unaligned_access_ok e bigVariable ;;
  _ <- unaligned_access_bad e buffer beyond 0 ;;
  _ <- unaligned_access_bad e buffer beyond 1 ;;
  fun m => Returns tt m.

(** A machine with the unaligned-access trap off, and one with it on. *)
Definition trap_off_machine : machine := sample_machine.
Definition trap_on_machine : machine := poke CCR_addr (W 8) sample_machine.

(** A stack that holds 0x11 in every byte past the array. *)
Definition stack_of_11 (off : Z) : byte := Byte.x11.

(** ** Writing a record and reading it back *)

(** The only write to the [.CoreDump] section is [my_fault_handler_c], and
    what it takes from outside is the frame: a record [r] is handed to it
    by a frame that carries the register members of [r]. *)
Definition frame_carries (r : Dump.sCoreDump) (frame : w32) (m : machine) : Prop :=
  Frame.r0 (mem m) frame = Dump.r0 r
  /\ Frame.r1 (mem m) frame = Dump.r1 r
  /\ Frame.r2 (mem m) frame = Dump.r2 r
  /\ Frame.r3 (mem m) frame = Dump.r3 r
  /\ Frame.return_address (mem m) frame = Dump.returnAddress r.

(** The bytes of the section once the handler has run. *)
Definition region_after_write (frame : w32) (m : machine) : list byte :=
  Dump.repr (coreDump (my_fault_handler_c frame m)).

(** "Writing [r] and then reading it back yields a record equal to [r] in
    every member." *)
Definition reads_back (r : Dump.sCoreDump) (frame : w32) (m : machine) : Prop :=
  frame_carries r frame m ->
  Dump.read (region_after_write frame m) = Some r.

(** A record with the register members of the frame of the sample fault,
    the key, and the cause and stack-pointer words that the section holds
    after that fault. *)
Definition sample_record (lastBattReading : w32) : Dump.sCoreDump :=
  Dump.mkCoreDump Dump.COREDUMP_KEY (W 0xA5A5A5A5)
                  (W 0) (W 10) (W 0x20000A10) (W 0x00000003)
                  (W 0x080004B6) (W 0x61000000) lastBattReading.

(** * Properties *)

(** ** Words and bytes *)

Lemma word_of_bytes_of_word (v : w32) :
  W (le_combine (Dump.bytes_of_word v)) = v.
Proof.
  unfold Dump.bytes_of_word, W.
  rewrite le_combine_split.
  change (Z.of_nat 4 * 8) with 32.
  pose proof (word.unsigned_range v) as Hr.
  rewrite Z.mod_small by exact Hr.
  apply word.of_Z_unsigned.
Qed.

Lemma bytes_of_word_of_bytes (bs : list byte) :
  List.length bs = 4%nat -> Dump.bytes_of_word (W (le_combine bs)) = bs.
Proof.
  intros Hlen. unfold Dump.bytes_of_word, W.
  rewrite word.unsigned_of_Z. unfold word.wrap.
  change 32 with (Z.of_nat 4 * 8).
  rewrite <- le_split_mod.
  apply split_le_combine'. exact Hlen.
Qed.

Lemma word_neq (a b : w32) : word.unsigned a <> word.unsigned b -> a <> b.
Proof. intros H E. apply H. rewrite E. reflexivity. Qed.

(** ** The region and the struct *)

Lemma load32_repr (d : Dump.sCoreDump) (f : Dump.field) :
  Dump.load32 (Dump.repr d) (Dump.offsetof f) = Dump.get f d.
Proof.
  rewrite <- (word_of_bytes_of_word (Dump.get f d)).
  destruct f; reflexivity.
Qed.

Lemma of_bytes_repr (d : Dump.sCoreDump) : Dump.of_bytes (Dump.repr d) = d.
Proof.
  unfold Dump.of_bytes. rewrite !load32_repr. destruct d; reflexivity.
Qed.

Lemma repr_of_bytes (region : list byte) :
  List.length region = 36%nat -> Dump.repr (Dump.of_bytes region) = region.
Proof.
  intros Hlen.
  do 36 (destruct region as [|? region]; [discriminate Hlen|]).
  destruct region; [|discriminate Hlen].
  unfold Dump.repr.
  cbn [flat_map Dump.members fst Dump.get Dump.of_bytes
       Dump.key Dump.cause Dump.r0 Dump.r1 Dump.r2 Dump.r3 Dump.returnAddress
       Dump.stackPointer Dump.lastBattReading].
  unfold Dump.load32.
  repeat match goal with
  | |- context [Z.to_nat (Dump.offsetof ?f)] =>
      let n := eval vm_compute in (Z.to_nat (Dump.offsetof f)) in
      change (Z.to_nat (Dump.offsetof f)) with n
  end.
  cbn [skipn firstn].
  rewrite !bytes_of_word_of_bytes by reflexivity.
  reflexivity.
Qed.

Lemma read_valid (region : list byte) :
  Dump.load32 region (Dump.offsetof Dump.Fkey) = Dump.COREDUMP_KEY ->
  Dump.read region = Some (Dump.of_bytes region).
Proof.
  intros Hk. unfold Dump.read. rewrite Hk.
  rewrite word.eqb_eq; reflexivity.
Qed.

Lemma read_invalid (region : list byte) :
  Dump.load32 region (Dump.offsetof Dump.Fkey) <> Dump.COREDUMP_KEY ->
  Dump.read region = None.
Proof.
  intros Hk. unfold Dump.read.
  rewrite word.eqb_ne; [reflexivity | exact Hk].
Qed.

Lemma read_repr (d : Dump.sCoreDump) :
  Dump.key d = Dump.COREDUMP_KEY -> Dump.read (Dump.repr d) = Some d.
Proof.
  intros Hk. rewrite read_valid.
  - rewrite of_bytes_repr. reflexivity.
  - rewrite load32_repr. exact Hk.
Qed.

(** ** Bit 2 of EXC_RETURN *)

Lemma land_4 (x : Z) :
  Z.land x (2 ^ 2) = if Z.testbit x 2 then 2 ^ 2 else 0.
Proof.
  apply Z.bits_inj'. intros n Hn.
  rewrite Z.land_spec, Z.pow2_bits_eqb by lia.
  destruct (Z.eqb_spec 2 n) as [<- | Hne].
  - rewrite andb_true_r.
    destruct (Z.testbit x 2);
      [symmetry; apply Z.pow2_bits_true; lia | symmetry; apply Z.bits_0].
  - rewrite andb_false_r.
    destruct (Z.testbit x 2);
      [symmetry; apply Z.pow2_bits_false; lia | symmetry; apply Z.bits_0].
Qed.

Lemma is_zero_and_4 (x : w32) :
  is_zero (word.and x (W 4)) = negb (Z.testbit (word.unsigned x) 2).
Proof.
  unfold is_zero, W.
  rewrite word.unsigned_and, word.unsigned_of_Z. unfold word.wrap.
  change (4 mod 2 ^ 32) with (2 ^ 2).
  rewrite land_4.
  destruct (Z.testbit (word.unsigned x) 2); reflexivity.
Qed.

Lemma and_4_comm (x : w32) : word.and (W 4) x = word.and x (W 4).
Proof.
  apply word.unsigned_inj. rewrite !word.unsigned_and.
  f_equal. apply Z.land_comm.
Qed.

(** ** The trampolines *)

Lemma run_S (fuel : nat) (prog : list line) (pc : nat) (m : machine) :
  run (S fuel) prog pc m
  = match nth_error prog pc with
    | None => None
    | Some (Label _) => run fuel prog (S pc) m
    | Some (Ins i) =>
        match step prog pc i m with
        | Next pc' m' => run fuel prog pc' m'
        | Leave symbol m' => Some (symbol, m')
        end
    end.
Proof. reflexivity. Qed.

(** One instruction of a block, with the word operations left alone. *)
Ltac run_step :=
  rewrite run_S; cbn [nth_error]; cbn [step value].

Lemma run_memfault (m : machine) :
  run 16 HARDFAULT_HANDLING_ASM 0 m
  = Some ("my_fault_handler_c"%string,
          set_gpr R0 (active_sp m)
            (set_flag_Z (negb (Z.testbit (word.unsigned (gpr m LR)) 2)) m)).
Proof.
  unfold HARDFAULT_HANDLING_ASM, active_sp.
  run_step.
  rewrite is_zero_and_4.
  destruct (Z.testbit (word.unsigned (gpr m LR)) 2); reflexivity.
Qed.

Lemma run_handler_1 (m : machine) :
  exists m',
    run 16 HardFault_Handler_1_asm 0 m = Some ("hard_fault_handler_c"%string, m')
    /\ gpr m' R0 = active_sp m
    /\ banked m' = banked m /\ mem m' = mem m
    /\ coreDump m' = coreDump m /\ trace m' = trace m.
Proof.
  unfold HardFault_Handler_1_asm, active_sp.
  do 3 run_step.
  cbn [set_gpr set_flag_Z gpr reg_eqb].
  rewrite and_4_comm, is_zero_and_4.
  destruct (Z.testbit (word.unsigned (gpr m LR)) 2);
    eexists; (split; [reflexivity|]); repeat split.
Qed.

(** ** What [my_fault_handler_c] leaves behind *)

Lemma trace_store f v m : trace (store f v m) = trace m ++ [EvStore f v].
Proof. reflexivity. Qed.

Lemma mem_store f v m : mem (store f v m) = mem m.
Proof. reflexivity. Qed.

Lemma trace_bkpt imm m : trace (bkpt imm m) = trace m ++ [EvBkpt imm].
Proof. reflexivity. Qed.

Lemma coreDump_after_handler (frame : w32) (m : machine) :
  coreDump (my_fault_handler_c frame m)
  = {| Dump.key := Dump.COREDUMP_KEY;
       Dump.cause := Dump.cause (coreDump m);
       Dump.r0 := Frame.r0 (mem m) frame;
       Dump.r1 := Frame.r1 (mem m) frame;
       Dump.r2 := Frame.r2 (mem m) frame;
       Dump.r3 := Frame.r3 (mem m) frame;
       Dump.returnAddress := Frame.return_address (mem m) frame;
       Dump.stackPointer := Frame.xpsr (mem m) frame;
       Dump.lastBattReading := W 0 |}.
Proof. reflexivity. Qed.

Lemma trace_after_handler (frame : w32) (m : machine) :
  trace (my_fault_handler_c frame m)
  = trace m ++
    [ EvStore Dump.Fkey Dump.COREDUMP_KEY;
      EvStore Dump.Fr0 (Frame.r0 (mem m) frame);
      EvStore Dump.Fr1 (Frame.r1 (mem m) frame);
      EvStore Dump.Fr2 (Frame.r2 (mem m) frame);
      EvStore Dump.Fr3 (Frame.r3 (mem m) frame);
      EvStore Dump.FreturnAddress (Frame.return_address (mem m) frame);
      EvStore Dump.FstackPointer (Frame.xpsr (mem m) frame);
      EvStore Dump.FlastBattReading (W 0);
      EvBkpt 0 ].
Proof.
  unfold my_fault_handler_c. cbv zeta.
  rewrite trace_bkpt, !trace_store, !mem_store.
  rewrite <- !app_assoc. reflexivity.
Qed.

Lemma mem_after_handler (frame : w32) (m : machine) :
  mem (my_fault_handler_c frame m) = mem m.
Proof. reflexivity. Qed.

Lemma HardFault_Handler_runs (m : machine) :
  HardFault_Handler m
  = Some (my_fault_handler_c (active_sp m)
            (set_gpr R0 (active_sp m)
               (set_flag_Z (negb (Z.testbit (word.unsigned (gpr m LR)) 2)) m))).
Proof.
  unfold HardFault_Handler. rewrite run_memfault. reflexivity.
Qed.

(** * The claims *)

(** C1 (evaluated at the sample fault). After [HardFault_Handler] has run
    on the sample fault, the persisted record holds the key, r0-r3 and the
    return address of the stacked frame, but its [stackPointer] member
    holds the stacked xPSR word 0x61000000, which is neither the stack
    pointer on handler entry (0x20017FC8) nor the one before the exception
    (0x20017FE8), and its [cause] member still holds the stale word that
    was in the section before the fault: the write postcondition of the
    claim does not hold for the code. *)
Theorem sample_fault_dump :
  option_map coreDump (HardFault_Handler sample_machine)
  = Some {| Dump.key := Dump.COREDUMP_KEY;
            Dump.cause := W 0xA5A5A5A5;
            Dump.r0 := W 0;
            Dump.r1 := W 10;
            Dump.r2 := W 0x20000A10;
            Dump.r3 := W 0x00000003;
            Dump.returnAddress := W 0x080004B6;
            Dump.stackPointer := W 0x61000000;
            Dump.lastBattReading := W 0 |}
  /\ active_sp sample_machine = W 0x20017FC8
  /\ Frame.xpsr (mem sample_machine) (active_sp sample_machine) = W 0x61000000
  /\ W 0x61000000 <> active_sp sample_machine
  /\ W 0x61000000 <> word.add (active_sp sample_machine) (W 32)
  /\ Dump.cause (coreDump sample_machine) = W 0xA5A5A5A5.
Proof.
  rewrite HardFault_Handler_runs. cbn [option_map].
  rewrite coreDump_after_handler.
  repeat split; try reflexivity.
  - apply word_neq. vm_compute. discriminate.
  - apply word_neq. vm_compute. discriminate.
Qed.

(** C2. For every content of the reserved region, [read] returns absent
    when the key member differs from [COREDUMP_KEY] and the full record
    (the struct seen through the region) otherwise; the answer depends on
    nothing but the four bytes of the key, and for a region of the size of
    the struct the record returned is the one whose bytes are the region. *)
Theorem read_checks_key_only (region : list byte) :
  (Dump.load32 region (Dump.offsetof Dump.Fkey) <> Dump.COREDUMP_KEY ->
   Dump.read region = None)
  /\ (Dump.load32 region (Dump.offsetof Dump.Fkey) = Dump.COREDUMP_KEY ->
      Dump.read region = Some (Dump.of_bytes region))
  /\ (forall rest rest' : list byte,
        List.length region = 4%nat ->
        W (le_combine region) <> Dump.COREDUMP_KEY ->
        Dump.read (region ++ rest) = None /\ Dump.read (region ++ rest') = None)
  /\ (List.length region = 36%nat ->
      Dump.repr (Dump.of_bytes region) = region).
Proof.
  split; [apply read_invalid|].
  split; [apply read_valid|].
  split; [|apply repr_of_bytes].
  intros rest rest' Hlen Hk.
  assert (Hload : forall tl, Dump.load32 (region ++ tl) (Dump.offsetof Dump.Fkey)
                             = W (le_combine region)).
  { intros tl. unfold Dump.load32.
    change (Z.to_nat (Dump.offsetof Dump.Fkey)) with 0%nat.
    cbn [skipn]. rewrite <- Hlen, firstn_app, Nat.sub_diag, firstn_all.
    cbn [firstn]. rewrite app_nil_r. reflexivity. }
  split; apply read_invalid; rewrite Hload; exact Hk.
Qed.

Lemma read_checks_key_only_witness :
  Dump.read sample_region
  = Some (Dump.mkCoreDump Dump.COREDUMP_KEY (W 1) (W 2) (W 3) (W 4) (W 5)
                          (W 6) (W 7) (W 8))
  /\ Dump.read (Dump.repr stale_dump) = None.
Proof.
  split.
  - rewrite (proj1 (proj2 (read_checks_key_only sample_region))).
    + unfold sample_region. rewrite of_bytes_repr. reflexivity.
    + unfold sample_region. rewrite load32_repr. reflexivity.
  - apply (proj1 (read_checks_key_only (Dump.repr stale_dump))).
    rewrite load32_repr. apply word_neq. vm_compute. discriminate.
Defined.

(** C3 (counterexample). A record whose auxiliary member is 77 is not read
    back: handed to the handler by the frame of the sample fault, whose
    registers it carries, it comes back with [lastBattReading] 0, because
    the handler stores the constant 0 and takes nothing but the frame. *)
Lemma sample_record_not_read_back :
  ~ reads_back (sample_record (W 77)) (active_sp sample_machine) sample_machine.
Proof.
  intros Hclaim.
  assert (Hcarries : frame_carries (sample_record (W 77))
                       (active_sp sample_machine) sample_machine)
    by (repeat split).
  specialize (Hclaim Hcarries).
  unfold region_after_write in Hclaim.
  rewrite read_repr in Hclaim by (rewrite coreDump_after_handler; reflexivity).
  apply (f_equal (fun o => match o with
                          | Some d => word.unsigned (Dump.lastBattReading d)
                          | None => 0
                          end)) in Hclaim.
  vm_compute in Hclaim. discriminate Hclaim.
Qed.

(** C3 (amended). For every state of the machine and every frame, reading
    the section back after [my_fault_handler_c] has written never returns
    absent, and the record returned has the key constant, the [r0]-[r3] and
    [returnAddress] of the record the frame carries, and 0 in
    [lastBattReading]; each of its nine members is the member as the
    handler left it in the section. *)
Theorem fault_write_reads_back
    (r : Dump.sCoreDump) (frame : w32) (m : machine) :
  frame_carries r frame m ->
  exists d,
    Dump.read (region_after_write frame m) = Some d
    /\ Dump.key d = Dump.COREDUMP_KEY
    /\ Dump.r0 d = Dump.r0 r
    /\ Dump.r1 d = Dump.r1 r
    /\ Dump.r2 d = Dump.r2 r
    /\ Dump.r3 d = Dump.r3 r
    /\ Dump.returnAddress d = Dump.returnAddress r
    /\ Dump.lastBattReading d = W 0
    /\ (forall f, Dump.get f d = Dump.get f (coreDump (my_fault_handler_c frame m))).
Proof.
  intros (H0 & H1 & H2 & H3 & Hra).
  exists (coreDump (my_fault_handler_c frame m)).
  split.
  { unfold region_after_write. apply read_repr.
    rewrite coreDump_after_handler. reflexivity. }
  rewrite coreDump_after_handler.
  cbn [Dump.key Dump.r0 Dump.r1 Dump.r2 Dump.r3 Dump.returnAddress
       Dump.lastBattReading].
  repeat split; assumption.
Qed.

Lemma fault_write_reads_back_witness :
  exists d,
    Dump.read (region_after_write (active_sp sample_machine) sample_machine)
    = Some d
    /\ Dump.key d = Dump.COREDUMP_KEY
    /\ Dump.r0 d = W 0
    /\ Dump.r1 d = W 10
    /\ Dump.r2 d = W 0x20000A10
    /\ Dump.r3 d = W 0x00000003
    /\ Dump.returnAddress d = W 0x080004B6
    /\ Dump.lastBattReading d = W 0.
Proof.
  destruct (fault_write_reads_back (sample_record (W 77))
              (active_sp sample_machine) sample_machine)
    as (d & Hread & Hkey & H0 & H1 & H2 & H3 & Hra & Haux & _).
  - repeat split.
  - exists d. repeat split; assumption.
Defined.

(** C4 (evaluated at the sample fault). No debugger is attached in the
    sample fault, and still the handler ends in the breakpoint instruction
    after its stores; it leaves memory as it was, the reset-request register
    AIRCR included, so no reset has been requested. *)
Theorem sample_fault_breaks_without_debugger :
  debugger_attached sample_machine = false
  /\ option_map trace (HardFault_Handler sample_machine)
     = Some [ EvStore Dump.Fkey Dump.COREDUMP_KEY;
              EvStore Dump.Fr0 (W 0);
              EvStore Dump.Fr1 (W 10);
              EvStore Dump.Fr2 (W 0x20000A10);
              EvStore Dump.Fr3 (W 0x00000003);
              EvStore Dump.FreturnAddress (W 0x080004B6);
              EvStore Dump.FstackPointer (W 0x61000000);
              EvStore Dump.FlastBattReading (W 0);
              EvBkpt 0 ]
  /\ option_map (fun m' => mem m' AIRCR_addr) (HardFault_Handler sample_machine)
     = Some (mem sample_machine AIRCR_addr).
Proof.
  rewrite HardFault_Handler_runs. cbn [option_map].
  rewrite trace_after_handler, mem_after_handler.
  repeat split.
Qed.

(** C5 (counterexample). In the sample fault both validity bits of CFSR are
    clear, yet what the decoder reports in [_MMAR] is the content of the
    address register: it changes when that content changes. *)
Lemma sample_fault_reports_raw_address :
  ~ invalid_address_withheld (active_sp sample_machine) sample_machine.
Proof.
  intros [Hmm _].
  specialize (Hmm eq_refl (W 0)).
  apply (f_equal word.unsigned) in Hmm.
  vm_compute in Hmm. discriminate Hmm.
Qed.

(** C5 (amended). Whatever the validity bits say, the decoder captures the
    raw contents of the two fault address registers, together with the
    whole CFSR word that holds MMARVALID and BFARVALID. *)
Theorem decoder_captures_address_registers (hardfault_args : w32) (m : machine) :
  _MMAR (decoded hardfault_args m) = mem m MMFAR_addr
  /\ _BFAR (decoded hardfault_args m) = mem m BFAR_addr
  /\ _CFSR (decoded hardfault_args m) = mem m CFSR_addr
  /\ MMARVALID (_CFSR (decoded hardfault_args m)) = MMARVALID (mem m CFSR_addr)
  /\ BFARVALID (_CFSR (decoded hardfault_args m)) = BFARVALID (mem m CFSR_addr).
Proof. repeat split. Qed.

(** C6 (counterexample). The CFSR of the sample fault has a
    memory-management bit and a bus bit set, and the decoder's output shows
    the bus fault as well. *)
Lemma sample_fault_shows_bus_fault :
  ~ protection_wins (active_sp sample_machine) sample_machine.
Proof.
  intros H.
  destruct H as [_ Hbus].
  - vm_compute. discriminate.
  - vm_compute. discriminate.
  - vm_compute in Hbus. discriminate Hbus.
Qed.

(** C6 (amended). The decoder does no classification and applies no
    priority: it captures CFSR and HFSR unchanged, so its output shows a
    category exactly when the hardware status has a bit of that category
    set; with a memory-management and a bus bit both set it shows both. *)
Theorem decoder_keeps_every_category (hardfault_args : w32) (m : machine) :
  _CFSR (decoded hardfault_args m) = mem m CFSR_addr
  /\ _HFSR (decoded hardfault_args m) = mem m HFSR_addr
  /\ (MMFSR (mem m CFSR_addr) <> 0 -> BFSR (mem m CFSR_addr) <> 0 ->
      shows (decoded hardfault_args m) ProtectionFault = true
      /\ shows (decoded hardfault_args m) AccessFault = true).
Proof.
  split; [reflexivity|]. split; [reflexivity|].
  intros Hmm Hbus. unfold shows, decoded.
  cbn [hard_fault_handler_c fst _CFSR].
  split; apply negb_true_iff, Z.eqb_neq; assumption.
Qed.

Lemma decoder_keeps_every_category_witness :
  shows (decoded (active_sp sample_machine) sample_machine) ProtectionFault = true
  /\ shows (decoded (active_sp sample_machine) sample_machine) AccessFault = true.
Proof.
  apply (decoder_keeps_every_category (active_sp sample_machine) sample_machine).
  - vm_compute. discriminate.
  - vm_compute. discriminate.
Defined.

(** C7. Both trampolines leave their block by the branch to the C handler
    with [r0] holding the main stack pointer when bit 2 of [lr] is clear and
    the process stack pointer when it is set; the handler is entered with
    that value as its frame pointer, and stack pointers and memory are as
    they were on entry. *)
Theorem trampoline_selects_stack (m : machine) :
  let selected :=
    if Z.testbit (word.unsigned (gpr m LR)) 2 then banked m PSP else banked m MSP in
  (Z.testbit (word.unsigned (gpr m LR)) 2 = negb (is_zero (word.and (gpr m LR) (W 4))))
  /\ (exists m',
        run 16 HARDFAULT_HANDLING_ASM 0 m = Some ("my_fault_handler_c"%string, m')
        /\ gpr m' R0 = selected
        /\ banked m' = banked m /\ mem m' = mem m
        /\ HardFault_Handler m = Some (my_fault_handler_c selected m'))
  /\ (exists m',
        run 16 HardFault_Handler_1_asm 0 m = Some ("hard_fault_handler_c"%string, m')
        /\ gpr m' R0 = selected
        /\ banked m' = banked m /\ mem m' = mem m
        /\ HardFault_Handler_1 m = Some (hard_fault_handler_c selected m')).
Proof.
  intros selected. split; [|split].
  - rewrite is_zero_and_4, negb_involutive. reflexivity.
  - eexists. split; [apply run_memfault|].
    split; [reflexivity|]. split; [reflexivity|]. split; [reflexivity|].
    apply HardFault_Handler_runs.
  - destruct (run_handler_1 m) as (m' & Hrun & Hr0 & Hb & Hmem & _ & _).
    exists m'. split; [exact Hrun|].
    split; [exact Hr0|]. split; [exact Hb|]. split; [exact Hmem|].
    unfold HardFault_Handler_1. rewrite Hrun, Hr0. reflexivity.
Qed.

(** C8. The members of [struct sCoreDump] lie at offsets 0, 4, ..., 32 in
    declaration order, with no padding in front of any of them (packed or
    not), the struct takes 36 bytes, and in the region that holds a record
    the four bytes at the offset of a member are the little-endian bytes
    of that member's value, for every record. *)
Theorem coreDump_layout :
  Dump.place true 0 Dump.members
  = [ (Dump.Fkey, 0); (Dump.Fcause, 4); (Dump.Fr0, 8); (Dump.Fr1, 12);
      (Dump.Fr2, 16); (Dump.Fr3, 20); (Dump.FreturnAddress, 24);
      (Dump.FstackPointer, 28); (Dump.FlastBattReading, 32) ]
  /\ Dump.place false 0 Dump.members = Dump.place true 0 Dump.members
  /\ Dump.padding true 0 Dump.members = [0; 0; 0; 0; 0; 0; 0; 0; 0]
  /\ Dump.padding false 0 Dump.members = [0; 0; 0; 0; 0; 0; 0; 0; 0]
  /\ map (fun mt => Dump.sizeof (snd mt)) Dump.members = [4; 4; 4; 4; 4; 4; 4; 4; 4]
  /\ Dump.sizeof_sCoreDump = 36
  /\ (forall d, List.length (Dump.repr d) = Z.to_nat Dump.sizeof_sCoreDump)
  /\ (forall d f,
        firstn 4 (skipn (Z.to_nat (Dump.offsetof f)) (Dump.repr d))
        = le_split 4 (word.unsigned (Dump.get f d)))
  /\ (forall d f, Dump.load32 (Dump.repr d) (Dump.offsetof f) = Dump.get f d).
Proof.
  repeat split.
  - intros d f. destruct f; reflexivity.
  - intros d f. apply load32_repr.
Qed.


(** C10. For every machine state and frame pointer, the [lastBattReading]
    member of the record is 0 after [my_fault_handler_c], whatever it held
    before; the same holds for a run through [HardFault_Handler]. *)
Theorem lastBattReading_is_zeroed (frame : w32) (m : machine) :
  Dump.lastBattReading (coreDump (my_fault_handler_c frame m)) = W 0
  /\ word.signed (Dump.lastBattReading (coreDump (my_fault_handler_c frame m))) = 0
  /\ (forall v,
        Dump.lastBattReading
          (coreDump (my_fault_handler_c frame
             (mkMachine (gpr m) (banked m) (flag_Z m) (mem m)
                (Dump.set Dump.FlastBattReading v (coreDump m)) (trace m))))
        = W 0)
  /\ option_map (fun m' => Dump.lastBattReading (coreDump m')) (HardFault_Handler m)
     = Some (W 0).
Proof.
  split; [reflexivity|]. split; [reflexivity|]. split; [reflexivity|].
  rewrite HardFault_Handler_runs. reflexivity.
Qed.

(** * Further properties of the handlers *)

Lemma run_handler_1_registers (m : machine) :
  exists m',
    run 16 HardFault_Handler_1_asm 0 m = Some ("hard_fault_handler_c"%string, m')
    /\ gpr m' R0 = active_sp m
    /\ gpr m' R1 = Frame.lr (mem m) (active_sp m)
    /\ gpr m' LR = gpr m LR
    /\ banked m' = banked m /\ mem m' = mem m
    /\ coreDump m' = coreDump m /\ trace m' = trace m.
Proof.
  unfold HardFault_Handler_1_asm, active_sp.
  do 3 run_step.
  cbn [set_gpr set_flag_Z gpr reg_eqb].
  rewrite and_4_comm, is_zero_and_4.
  destruct (Z.testbit (word.unsigned (gpr m LR)) 2);
    eexists; (split; [reflexivity|]); repeat split.
Qed.

(** X1. [HardFault_Handler] always reaches [my_fault_handler_c], and the
    record it leaves is read from the frame on the stack that was active at
    the fault: the key, the words at offsets 0, 4, 8, 12 and 24 of the frame
    in [r0]-[r3] and [returnAddress], the word at offset 28 (the stacked
    xPSR) in [stackPointer], 0 in [lastBattReading], and the [cause] the
    section held before.  Memory, the two stack pointers and [lr] are as
    they were. *)
Theorem HardFault_Handler_records_active_frame (m : machine) :
  exists m',
    HardFault_Handler m = Some m'
    /\ coreDump m'
       = {| Dump.key := Dump.COREDUMP_KEY;
            Dump.cause := Dump.cause (coreDump m);
            Dump.r0 := mem m (word.add (active_sp m) (W 0));
            Dump.r1 := mem m (word.add (active_sp m) (W 4));
            Dump.r2 := mem m (word.add (active_sp m) (W 8));
            Dump.r3 := mem m (word.add (active_sp m) (W 12));
            Dump.returnAddress := mem m (word.add (active_sp m) (W 24));
            Dump.stackPointer := mem m (word.add (active_sp m) (W 28));
            Dump.lastBattReading := W 0 |}
    /\ mem m' = mem m /\ banked m' = banked m /\ gpr m' LR = gpr m LR.
Proof.
  eexists. split; [apply HardFault_Handler_runs|].
  rewrite coreDump_after_handler.
  repeat split.
Qed.

(** X2. The record keeps no history: after two faults in a row it is what
    the second fault alone would have left, whatever the first frame was. *)
Theorem last_fault_wins (frame1 frame2 : w32) (m : machine) :
  coreDump (my_fault_handler_c frame2 (my_fault_handler_c frame1 m))
  = coreDump (my_fault_handler_c frame2 m).
Proof.
  rewrite !coreDump_after_handler, mem_after_handler.
  reflexivity.
Qed.

(** X3. The trampoline of [NEW_HANLDER_1] enters [hard_fault_handler_c] with
    the stacked link register (the word at offset 20 of the selected frame)
    in [r1], leaves [lr], memory and the record untouched, and never
    reaches the [bkpt #0] that follows its branch. *)
Theorem trampoline_1_loads_stacked_lr (m : machine) :
  exists m',
    run 16 HardFault_Handler_1_asm 0 m = Some ("hard_fault_handler_c"%string, m')
    /\ gpr m' R1 = mem m (word.add (active_sp m) (W 20))
    /\ gpr m' LR = gpr m LR
    /\ mem m' = mem m /\ coreDump m' = coreDump m
    /\ trace m' = trace m.
Proof.
  destruct (run_handler_1_registers m)
    as (m' & Hrun & _ & Hr1 & Hlr & _ & Hmem & Hcd & Htr).
  exists m'. repeat split; assumption.
Qed.

(** X4. The two build variants read the same frame: run on the same fault,
    the decoder's [stacked_r0]-[stacked_r3] and [stacked_pc] are the words
    the other variant stores in [r0]-[r3] and [returnAddress] of the
    record, and the word it stores in [stackPointer] is the decoder's
    [stacked_psr]. *)
Theorem variants_read_same_frame (m : machine) :
  exists l m1 m2,
    HardFault_Handler_1 m = Some (l, m1)
    /\ HardFault_Handler m = Some m2
    /\ Dump.r0 (coreDump m2) = stacked_r0 l
    /\ Dump.r1 (coreDump m2) = stacked_r1 l
    /\ Dump.r2 (coreDump m2) = stacked_r2 l
    /\ Dump.r3 (coreDump m2) = stacked_r3 l
    /\ Dump.returnAddress (coreDump m2) = stacked_pc l
    /\ Dump.stackPointer (coreDump m2) = stacked_psr l.
Proof.
  destruct (run_handler_1 m) as (m' & Hrun & Hr0 & _ & Hmem & _ & _).
  exists (fst (hard_fault_handler_c (active_sp m) m')),
         (snd (hard_fault_handler_c (active_sp m) m')).
  eexists.
  split.
  { unfold HardFault_Handler_1. rewrite Hrun, Hr0. reflexivity. }
  split; [apply HardFault_Handler_runs|].
  rewrite coreDump_after_handler.
  cbn [hard_fault_handler_c fst stacked_r0 stacked_r1 stacked_r2 stacked_r3
       stacked_pc stacked_psr Dump.r0 Dump.r1 Dump.r2 Dump.r3
       Dump.returnAddress Dump.stackPointer].
  rewrite Hmem.
  repeat split.
Qed.

(** X6. After any fault the first four bytes of the [.CoreDump] section are
    24 20 0C 0E (the key, low byte first) and its last four bytes, those of
    [lastBattReading], are zero. *)
Theorem section_bytes_after_fault (frame : w32) (m : machine) :
  firstn 4 (Dump.repr (coreDump (my_fault_handler_c frame m)))
  = [Byte.x24; Byte.x20; Byte.x0c; Byte.x0e]
  /\ skipn 32 (Dump.repr (coreDump (my_fault_handler_c frame m)))
     = [Byte.x00; Byte.x00; Byte.x00; Byte.x00].
Proof.
  rewrite coreDump_after_handler. split; reflexivity.
Qed.

(** * The unaligned-access demonstrations *)

Lemma aligned4_add (b : w32) (i : Z) :
  aligned4 (word.add b (W i)) = ((word.unsigned b + i) mod 4 =? 0).
Proof.
  unfold aligned4, W. f_equal.
  rewrite word.unsigned_add, word.unsigned_of_Z. unfold word.wrap.
  change (2 ^ 32) with 4294967296.
  Z.div_mod_to_equations. lia.
Qed.

Lemma load_word_trap_off e addr bytes m :
  UNALIGN_TRP m = false ->
  load_word e addr bytes m = Returns (W (combine32 e bytes)) m.
Proof. intros H. unfold load_word. rewrite H. reflexivity. Qed.

Lemma load_word_aligned e addr bytes m :
  aligned4 addr = true ->
  load_word e addr bytes m = Returns (W (combine32 e bytes)) m.
Proof.
  intros H. unfold load_word. rewrite H, andb_false_r. reflexivity.
Qed.

Lemma load_word_trapped e addr bytes m :
  UNALIGN_TRP m = true -> aligned4 addr = false ->
  load_word e addr bytes m = UnalignedFault addr m.
Proof. intros Ht Ha. unfold load_word. rewrite Ht, Ha. reflexivity. Qed.

Lemma byte_at_inside beyond off :
  0 <= off < 6 -> byte_at beyond off = nth (Z.to_nat off) buffer_init Byte.x00.
Proof.
  intros H. unfold byte_at.
  destruct (Z.ltb_spec off 6); [reflexivity | lia].
Qed.

Lemma byte_at_outside beyond off : 6 <= off -> byte_at beyond off = beyond off.
Proof.
  intros H. unfold byte_at.
  destruct (Z.ltb_spec off 6); [lia | reflexivity].
Qed.

(** X7. [unaligned_access_bad] uses its argument through [uint8_t i]: two
    indices that differ by a multiple of 256 give the same access. *)
Theorem unaligned_access_bad_index_wraps
    (e : byte_order) (buffer : w32) (beyond : Z -> byte) (index k : Z)
    (m : machine) :
  unaligned_access_bad e buffer beyond (index + 256 * k) m
  = unaligned_access_bad e buffer beyond index m.
Proof.
  unfold unaligned_access_bad.
  rewrite (Z.mul_comm 256 k), Z_mod_plus_full. reflexivity.
Qed.

(** X8. With the trap off and [i] (the index modulo 256) at most 2, the four
    bytes read are elements [i] to [i + 3] of the array, whatever the stack
    holds past it; on the little-endian target index 1 gives 0xEEDDCCBB, the
    value the source comments. *)
Theorem unaligned_access_bad_in_bounds
    (e : byte_order) (buffer : w32) (beyond : Z -> byte) (index : Z)
    (m : machine) :
  UNALIGN_TRP m = false ->
  index mod 256 <= 2 ->
  unaligned_access_bad e buffer beyond index m
  = Returns (W (combine32 e
                 (firstn 4 (skipn (Z.to_nat (index mod 256)) buffer_init)))) m.
Proof.
  intros Htrap Hi.
  pose proof (Z.mod_pos_bound index 256 ltac:(lia)) as Hpos.
  unfold unaligned_access_bad.
  rewrite load_word_trap_off by exact Htrap.
  cbn [map].
  rewrite !byte_at_inside by lia.
  assert (Hcase : index mod 256 = 0 \/ index mod 256 = 1 \/ index mod 256 = 2)
    by lia.
  destruct Hcase as [-> | [-> | ->]]; reflexivity.
Qed.

Lemma unaligned_access_bad_in_bounds_witness :
  unaligned_access_bad LittleEndian (W 0x20017F00) stack_of_11 1 trap_off_machine
  = Returns (W 0xEEDDCCBB) trap_off_machine.
Proof.
  rewrite (unaligned_access_bad_in_bounds LittleEndian (W 0x20017F00)
             stack_of_11 1 trap_off_machine).
  - reflexivity.
  - reflexivity.
  - vm_compute. discriminate.
Defined.

(** X9. With the trap off and [i] (the index modulo 256) at least 3, the
    access runs past the six bytes of the array: on the little-endian
    target the most significant byte of the word returned is the stack
    byte at offset [i + 3] from the start of the array. *)
Theorem unaligned_access_bad_reads_past_array
    (buffer : w32) (beyond : Z -> byte) (index : Z) (m : machine) :
  UNALIGN_TRP m = false ->
  3 <= index mod 256 ->
  exists v,
    unaligned_access_bad LittleEndian buffer beyond index m = Returns v m
    /\ nth 3 (Dump.bytes_of_word v) Byte.x00 = beyond (index mod 256 + 3).
Proof.
  intros Htrap Hi.
  unfold unaligned_access_bad.
  rewrite load_word_trap_off by exact Htrap.
  eexists. split; [reflexivity|].
  cbn [combine32].
  rewrite bytes_of_word_of_bytes by reflexivity.
  cbn [map nth].
  apply byte_at_outside. lia.
Qed.

Lemma unaligned_access_bad_reads_past_array_witness :
  exists v,
    unaligned_access_bad LittleEndian (W 0x20017F00) stack_of_11 3 trap_off_machine
    = Returns v trap_off_machine
    /\ nth 3 (Dump.bytes_of_word v) Byte.x00 = Byte.x11.
Proof.
  apply (unaligned_access_bad_reads_past_array (W 0x20017F00) stack_of_11 3
           trap_off_machine).
  - reflexivity.
  - vm_compute. discriminate.
Defined.

(** X10. With UNALIGN_TRP set, [unaligned_access_bad] faults exactly when
    the address of [buffer[i]] is not a multiple of 4, and the fault is at
    that address; otherwise it returns the word as with the trap off. *)
Theorem unaligned_access_bad_trap
    (e : byte_order) (buffer : w32) (beyond : Z -> byte) (index : Z)
    (m : machine) :
  UNALIGN_TRP m = true ->
  unaligned_access_bad e buffer beyond index m
  = if (word.unsigned buffer + index mod 256) mod 4 =? 0
    then Returns (W (combine32 e
                       (map (byte_at beyond)
                            [index mod 256; index mod 256 + 1;
                             index mod 256 + 2; index mod 256 + 3]))) m
    else UnalignedFault (word.add buffer (W (index mod 256))) m.
Proof.
  intros Htrap. unfold unaligned_access_bad.
  rewrite <- aligned4_add.
  destruct (aligned4 (word.add buffer (W (index mod 256)))) eqn:Ha.
  - apply load_word_aligned. exact Ha.
  - apply load_word_trapped; assumption.
Qed.

Lemma unaligned_access_bad_trap_witness :
  unaligned_access_bad LittleEndian (W 0x20017F00) stack_of_11 1 trap_on_machine
  = UnalignedFault (W 0x20017F01) trap_on_machine
  /\ unaligned_access_bad LittleEndian (W 0x20017F00) stack_of_11 0 trap_on_machine
     = Returns (W 0xDDCCBBAA) trap_on_machine.
Proof.
  split.
  - rewrite (unaligned_access_bad_trap LittleEndian (W 0x20017F00) stack_of_11 1
               trap_on_machine); reflexivity.
  - rewrite (unaligned_access_bad_trap LittleEndian (W 0x20017F00) stack_of_11 0
               trap_on_machine); reflexivity.
Defined.

Lemma unaligned_access_ok_aligned e bigVariable m :
  aligned4 bigVariable = true ->
  unaligned_access_ok e bigVariable m = Returns Byte.xdd m.
Proof.
  intros Ha. unfold unaligned_access_ok, bind.
  rewrite load_word_aligned by exact Ha.
  destruct e; reflexivity.
Qed.

(** X11. [unaligned_access_ok] returns 0xDD in either byte order: the word
    is loaded whole and then narrowed, so the result is the low byte of
    0xAABBCCDD and not the byte at the lowest address; with the variable
    4-aligned it returns also when UNALIGN_TRP is set. *)
Theorem unaligned_access_ok_is_0xDD
    (e : byte_order) (bigVariable : w32) (m : machine) :
  aligned4 bigVariable = true ->
  unaligned_access_ok e bigVariable m = Returns Byte.xdd m.
Proof.
  apply unaligned_access_ok_aligned.
Qed.

Lemma unaligned_access_ok_is_0xDD_witness :
  unaligned_access_ok BigEndian (W 0x20017F10) trap_on_machine
  = Returns Byte.xdd trap_on_machine.
Proof.
  apply (unaligned_access_ok_is_0xDD BigEndian (W 0x20017F10) trap_on_machine).
  reflexivity.
Defined.

Lemma UNALIGN_TRP_after_set (m : machine) :
  UNALIGN_TRP (poke CCR_addr (word.or (mem m CCR_addr) (W (Z.shiftl 1 3))) m)
  = true.
Proof.
  unfold UNALIGN_TRP, poke. cbn [mem].
  rewrite word.eqb_eq by reflexivity.
  rewrite word.unsigned_or_nowrap, Z.lor_spec.
  apply orb_true_iff. right. reflexivity.
Qed.

(** X12. [SCB->CCR |= (1<<3)] sets bit 3 of CCR and keeps every other bit of
    it; no other word of memory, and nothing else of the machine, changes. *)
Theorem set_UNALIGN_TRP_sets_bit_3 (m : machine) :
  exists m',
    set_UNALIGN_TRP m = Returns tt m'
    /\ UNALIGN_TRP m' = true
    /\ (forall n, Z.testbit (word.unsigned (mem m' CCR_addr)) n
                  = (n =? 3) || Z.testbit (word.unsigned (mem m CCR_addr)) n)
    /\ (forall a, mem m' a = if word.eqb a CCR_addr then mem m' CCR_addr else mem m a)
    /\ coreDump m' = coreDump m /\ trace m' = trace m
    /\ gpr m' = gpr m /\ banked m' = banked m.
Proof.
  eexists. split; [reflexivity|].
  split; [apply UNALIGN_TRP_after_set|].
  split.
  - intros n. unfold poke. cbn [mem].
    rewrite word.eqb_eq by reflexivity.
    rewrite word.unsigned_or_nowrap, Z.lor_spec, orb_comm. f_equal.
    unfold W. rewrite word.unsigned_of_Z. unfold word.wrap.
    change (Z.shiftl 1 3 mod 2 ^ 32) with (2 ^ 3).
    destruct (Z.ltb_spec n 0) as [Hneg | Hpos].
    + rewrite Z.testbit_neg_r by lia.
      symmetry. apply Z.eqb_neq. lia.
    + rewrite Z.pow2_bits_eqb by lia. apply Z.eqb_sym.
  - split.
    + intros a. unfold poke. cbn [mem].
      destruct (word.eqb a CCR_addr) eqn:E; [|reflexivity].
      rewrite word.eqb_eq by reflexivity. reflexivity.
    + repeat split.
Qed.

(** X13. With both locals 4-aligned, the UNALIGNED ACCESS block of
    [do_some_hardfaults] never runs to its end: it stops in the fault of an
    [unaligned_access_bad(1)], at the address of [buffer[1]].  When the
    trap was off on entry that is the last call of the block and
    UNALIGN_TRP is set by then; when it was on already, it is the first
    call and the machine is as on entry. *)
Theorem do_some_hardfaults_unaligned_faults
    (e : byte_order) (buffer : w32) (beyond : Z -> byte) (bigVariable : w32)
    (m : machine) :
  aligned4 buffer = true ->
  aligned4 bigVariable = true ->
  exists m',
    do_some_hardfaults_unaligned e buffer beyond bigVariable m
    = UnalignedFault (word.add buffer (W 1)) m'
    /\ UNALIGN_TRP m' = true
    /\ (if UNALIGN_TRP m then m' = m
        else m' = poke CCR_addr (word.or (mem m CCR_addr) (W 8)) m).
Proof.
  intros Hbuf Hbig.
  assert (H1 : aligned4 (word.add buffer (W (1 mod 256))) = false).
  { rewrite aligned4_add. unfold aligned4 in Hbuf.
    apply Z.eqb_eq in Hbuf. apply Z.eqb_neq.
    change (1 mod 256) with 1.
    rewrite Z.add_mod, Hbuf by lia. discriminate. }
  assert (H0 : aligned4 (word.add buffer (W (0 mod 256))) = true).
  { rewrite aligned4_add. change (0 mod 256) with 0. rewrite Z.add_0_r.
    exact Hbuf. }
  unfold do_some_hardfaults_unaligned.
  destruct (UNALIGN_TRP m) eqn:Htrap.
  - exists m. split; [|split; [exact Htrap | reflexivity]].
    unfold bind at 1. unfold unaligned_access_bad at 1.
    rewrite load_word_trapped by assumption. reflexivity.
  - eexists. split; [|split; [|reflexivity]].
    + unfold bind at 1. unfold unaligned_access_bad at 1.
      rewrite load_word_trap_off by exact Htrap.
      unfold bind at 1. rewrite unaligned_access_ok_aligned by exact Hbig.
      unfold bind at 1. unfold set_UNALIGN_TRP at 1.
      change (W (Z.shiftl 1 3)) with (W 8).
      unfold bind at 1. rewrite unaligned_access_ok_aligned by exact Hbig.
      unfold bind at 1. unfold unaligned_access_bad at 1.
      rewrite load_word_aligned by exact H0.
      unfold bind at 1. unfold unaligned_access_bad at 1.
      rewrite load_word_trapped; [reflexivity| |exact H1].
      apply UNALIGN_TRP_after_set.
    + apply UNALIGN_TRP_after_set.
Qed.

Lemma do_some_hardfaults_unaligned_faults_witness :
  exists m',
    do_some_hardfaults_unaligned LittleEndian (W 0x20017F00) stack_of_11
      (W 0x20017F10) trap_off_machine
    = UnalignedFault (W 0x20017F01) m'
    /\ UNALIGN_TRP m' = true.
Proof.
  destruct (do_some_hardfaults_unaligned_faults LittleEndian (W 0x20017F00)
              stack_of_11 (W 0x20017F10) trap_off_machine)
    as (m' & Hrun & Htrap & _).
  - reflexivity.
  - reflexivity.
  - exists m'. split; [exact Hrun | exact Htrap].
Defined.
